(** * Broker claims dashboard: the claims transformer of [app.py]

    A shallow embedding of the data preparation ([load_data]) and of the
    aggregations computed by the script body of [app.py] (KPIs, the two
    top-5 summaries, the status counts and the incurred-by-year summary),
    followed by the properties the specification states about them.

    Modelling choices, all visible in the definitions below:
    - a data frame is column oriented, as in the source: a finite map from
      column names to series, plus the number of rows;
    - a series cell is a [value]: the null marker (NaN / NaT), a number, a
      string or a timestamp;
    - monetary amounts are exact rationals ([Qc]); rounding and infinities of
      binary floating point are outside the model;
    - library calls that can raise in Python return a [result];
    - the scalar converters behind [pd.to_numeric] and [pd.to_datetime] are
      parameters of the development (the class [Converters]), applied cell
      by cell; [errors='coerce'] turns their failure into the null marker. *)

From Stdlib Require Import QArith Qcanon Qround Lqa Ascii String.
From stdpp Require Import base option list numbers strings gmap sorting.

Local Open Scope string_scope.

(** ** Exceptions and the error monad *)

Inductive exn :=
  | FileNotFoundError
  | PermissionError
  | EmptyDataError
  | KeyError (key : string)
  | TypeError
  | AttributeError
  | ZeroDivisionError.

Inductive result (A : Type) :=
  | Ok (a : A)
  | Raise (e : exn).
Arguments Ok {A} a.
Arguments Raise {A} e.

Global Instance result_ret : MRet result := @Ok.
Global Instance result_bind : MBind result := λ A B f m,
  match m with
  | Ok a => f a
  | Raise e => Raise e
  end.
Global Instance result_fmap : FMap result := λ A B f m,
  match m with
  | Ok a => Ok (f a)
  | Raise e => Raise e
  end.

Global Instance exn_eq_dec : EqDecision exn.
Proof. solve_decision. Defined.

(** ** Cells, series and data frames *)

Record datetime := mkDatetime { year : Z; month : Z; day : Z }.

Global Instance datetime_eq_dec : EqDecision datetime.
Proof. solve_decision. Defined.

Inductive value :=
  | NaN                       (* missing: NaN, NaT, blank cell *)
  | Num (q : Qc)
  | Str (s : string)
  | Timestamp (d : datetime).

Global Instance value_eq_dec : EqDecision value.
Proof. solve_decision. Defined.

Abbreviation series := (list value).

Record DataFrame := mkFrame {
  nrows : nat;
  columns : gmap string (list value)
}.

(** [df[col]] *)
Definition getitem (df : DataFrame) (col : string) : result series :=
  match columns df !! col with
  | Some s => Ok s
  | None => Raise (KeyError col)
  end.

(** [df[col] = s] *)
Definition setitem (df : DataFrame) (col : string) (s : series) : DataFrame :=
  mkFrame (nrows df) (<[col := s]> (columns df)).

(** The cell of column [col] in row [i], when there is one. *)
Definition cell (df : DataFrame) (col : string) (i : nat) : option value :=
  columns df !! col ≫= (.!! i).
Global Arguments cell : simpl never.

(** Every column has one cell per row. *)
Definition well_formed (df : DataFrame) : Prop :=
  ∀ col s, columns df !! col = Some s → length s = nrows df.

(** [df.iloc[idx]]: the frame made of the rows at positions [idx]. *)
Definition take_rows {A : Type} (idx : list nat) (s : list A) : list A :=
  omap (λ i, s !! i) idx.
Definition iloc (idx : list nat) (df : DataFrame) : DataFrame :=
  mkFrame (length idx) (take_rows idx <$> columns df).

(** ** Cell-wise operations *)

Definition isna (v : value) : bool :=
  match v with NaN => true | _ => false end.

(** [s.fillna(q)] *)
Definition fillna (q : Qc) (s : series) : series :=
  (λ v, if isna v then Num q else v) <$> s.

(** Elementwise [+] of two cells: a missing operand gives a missing result,
    numbers add, strings concatenate, anything else is a type error. *)
Definition add_value (a b : value) : result value :=
  match a, b with
  | NaN, _ | _, NaN => Ok NaN
  | Num x, Num y => Ok (Num (x + y)%Qc)
  | Str x, Str y => Ok (Str (x +:+ y))
  | _, _ => Raise TypeError
  end.

(** [s + t] on aligned series. *)
Definition add_series (s t : series) : result series :=
  mapM (λ p, add_value p.1 p.2) (zip s t).

(** [s.dt.year]; the [.dt] accessor exists on datetime series only. *)
Definition dt_year_value (v : value) : result value :=
  match v with
  | NaN => Ok NaN
  | Timestamp d => Ok (Num (Qc_of_Z (year d)))
  | _ => Raise AttributeError
  end.
Definition dt_year (s : series) : result series := mapM dt_year_value s.

(** A [for] loop whose body may raise. *)
Fixpoint for_each {A S : Type} (body : S → A → result S) (st : S) (l : list A)
    : result S :=
  match l with
  | [] => Ok st
  | x :: l => st' ← body st x; for_each body st' l
  end.

(** ** Aggregations *)

(** [s.sum()]: nulls are skipped, the empty sum is zero. *)
Fixpoint series_sum (s : series) : result Qc :=
  match s with
  | [] => Ok 0%Qc
  | NaN :: s => series_sum s
  | Num q :: s => r ← series_sum s; Ok (q + r)%Qc
  | _ :: _ => Raise TypeError
  end.

(** [s == x], cell by cell; a missing cell equals nothing. *)
Definition eq_scalar (s : series) (x : value) : list bool :=
  (λ v, negb (isna v) && bool_decide (v = x)) <$> s.

(** The entries of [s] at the positions where [mask] holds. *)
Fixpoint select {A : Type} (mask : list bool) (s : list A) : list A :=
  match mask, s with
  | b :: mask, v :: s => if b then v :: select mask s else select mask s
  | _, _ => []
  end.

(** [df[mask]]: the index of [df] is [0 .. nrows df - 1]. *)
Definition boolean_index (df : DataFrame) (mask : list bool) : DataFrame :=
  mkFrame (length (select mask (seq 0 (nrows df))))
          (select mask <$> columns df).

(** [len(df)] *)
Definition len (df : DataFrame) : nat := nrows df.

(** [a / n] *)
Definition true_div (a : Qc) (n : nat) : result Qc :=
  match n with
  | O => Raise ZeroDivisionError
  | S _ => Ok (a / Qc_of_Z (Z.of_nat n))%Qc
  end.

(** The order in which group keys and index labels are sorted: numbers,
    then timestamps, then strings, nulls last; inside a kind the natural
    order. *)
Definition kind_rank (v : value) : nat :=
  match v with
  | Num _ => 0
  | Timestamp _ => 1
  | Str _ => 2
  | NaN => 3
  end.

Definition datetime_le (d e : datetime) : Prop :=
  (year d < year e ∨
   (year d = year e ∧
    (month d < month e ∨ (month d = month e ∧ day d ≤ day e))))%Z.

Definition value_le (a b : value) : Prop :=
  match a, b with
  | Num x, Num y => (x ≤ y)%Qc
  | Timestamp d, Timestamp e => datetime_le d e
  | Str s, Str t => String.leb s t = true
  | _, _ => (kind_rank a ≤ kind_rank b)%nat
  end.

Global Instance datetime_le_dec : RelDecision datetime_le.
Proof. intros d e. unfold datetime_le. apply _. Defined.

Global Instance value_le_dec : RelDecision value_le.
Proof. intros [|x|s|d] [|y|t|e]; simpl; apply _. Defined.

(** Group keys of [df.groupby(key)]: the distinct non-null cells of the key
    column, sorted. *)
Definition group_keys (k : series) : list value :=
  merge_sort value_le (remove_dups (filter (λ v, isna v = false) k)).

(** The cells of [v] in the rows whose key is [g]. *)
Definition group_values (k v : series) (g : value) : series :=
  select ((λ x, bool_decide (x = g)) <$> k) v.

(** [df.groupby(key)[col].sum()] as (key, sum) pairs. *)
Definition groupby_sum (df : DataFrame) (key col : string)
    : result (list (value * Qc)) :=
  k ← getitem df key;
  v ← getitem df col;
  mapM (λ g, t ← series_sum (group_values k v g); Ok (g, t)) (group_keys k).

(** [.sort_values(ascending=False)] *)
Definition by_value_desc {K : Type} (a b : K * Qc) : Prop := (b.2 ≤ a.2)%Qc.
Global Instance by_value_desc_dec {K} : RelDecision (@by_value_desc K) :=
  λ a b, decide (b.2 ≤ a.2)%Qc.
Definition sort_values_desc (l : list (value * Qc)) : list (value * Qc) :=
  merge_sort by_value_desc l.

(** [.head(n)] *)
Definition head {A : Type} (n : nat) (l : list A) : list A := take n l.

(** [.sort_index()] *)
Definition by_index {V : Type} (a b : value * V) : Prop := value_le a.1 b.1.
Global Instance by_index_dec {V} : RelDecision (@by_index V) :=
  λ a b, decide (value_le a.1 b.1).

(** [s.value_counts()]: one count per distinct non-null cell, largest
    count first. *)
Definition by_count_desc (a b : value * nat) : Prop := (b.2 ≤ a.2)%nat.
Global Instance by_count_desc_dec : RelDecision by_count_desc :=
  λ a b, decide (b.2 ≤ a.2)%nat.
Definition value_counts (s : series) : list (value * nat) :=
  merge_sort by_count_desc
    ((λ g, (g, length (filter (λ v, v = g) s)))
       <$> remove_dups (filter (λ v, isna v = false) s)).

(** Line 27. *)
Definition financial_cols : list string :=
  ["PaidIndemnity"; "PaidExpense"; "ReserveIndemnity"; "ReserveExpense"].

(** ** Notions used in the statements *)

(** The columns [load_data] reads. *)
Definition load_cols : list string :=
  ["DateOfLoss"; "DateReported"] ++ financial_cols.


Definition has_columns (cols : list string) (df : DataFrame) : Prop :=
  ∀ c, c ∈ cols → is_Some (columns df !! c).

(** The number in a numeric cell (zero for a null), and the sum of a
    numeric series. *)
Definition number (v : value) : Qc :=
  match v with
  | Num q => q
  | _ => 0%Qc
  end.
Definition sum_of (s : series) : Qc := foldr Qcplus 0%Qc (number <$> s).

(** A cell of a numeric column: a number or a null. *)
Definition numeric (v : value) : Prop :=
  match v with
  | NaN | Num _ => True
  | _ => False
  end.

(** The [(key, value)] rows of two columns whose key is [g]. *)
Definition rows_with (g : value) (k v : series) : list (value * value) :=
  filter (λ r, r.1 = g) (zip k v).

(** What the specification asks of [top_n_by_group]: at most [n] pairs, one
    per distinct group value, each with the sum of [v] over the rows of the
    group, in descending order of the sums, and no group left out has a
    larger sum than a group kept. *)
Definition is_top_groups (n : nat) (k v : series) (top : list (value * Qc))
    : Prop :=
  (length top ≤ n)%nat ∧
  length top = (n `min` length (remove_dups (filter (λ g, g ≠ NaN) k)))%nat ∧
  NoDup top.*1 ∧
  (∀ g s, (g, s) ∈ top →
          g ≠ NaN ∧ g ∈ k ∧ s = sum_of ((rows_with g k v).*2)) ∧
  StronglySorted (λ a b, (b.2 ≤ a.2)%Qc) top ∧
  (∀ g p, g ≠ NaN → g ∈ k → g ∉ top.*1 → p ∈ top →
          (sum_of ((rows_with g k v).*2) ≤ p.2)%Qc).

(** ** The script *)

Definition column_order : list string :=
  ["ClaimNumber"; "ClaimStatus"; "DateOfLoss"; "DateReported";
   "CauseOfLoss"; "Location"; "LossYear";
   "TotalIncurred"; "TotalPaid";
   "PaidIndemnity"; "PaidExpense"; "ReserveIndemnity"; "ReserveExpense"].

Record kpis := mkKpis {
  total_incurred : Qc;
  total_paid : Qc;
  total_open_claims : nat;
  avg_cost_per_open_claim : Qc
}.



(** The scalar converters of the data-frame library: what a non-null cell
    that is not yet of the target type converts to, [None] when it does not
    convert. *)
Class Converters := {
  parse_datetime : value → option datetime;
  parse_numeric : value → option Qc
}.

Section Transformer.

Context `{Converters}.

(** [pd.to_datetime(s, errors='coerce')] *)
Definition to_datetime_value (v : value) : value :=
  match v with
  | NaN => NaN
  | Timestamp d => Timestamp d
  | _ => match parse_datetime v with
         | Some d => Timestamp d
         | None => NaN
         end
  end.
Definition to_datetime (s : series) : series := to_datetime_value <$> s.

(** [pd.to_numeric(s, errors='coerce')] *)
Definition to_numeric_value (v : value) : value :=
  match v with
  | NaN => NaN
  | Num q => Num q
  | _ => match parse_numeric v with
         | Some q => Num q
         | None => NaN
         end
  end.
Definition to_numeric (s : series) : series := to_numeric_value <$> s.

(** [load_data], lines 18-43; [csv] is the outcome of [pd.read_csv]. *)
Definition load_data (csv : result DataFrame) : result DataFrame :=
  df ← csv;
  (* Data cleaning: dates *)
  s ← getitem df "DateOfLoss";
  let df := setitem df "DateOfLoss" (to_datetime s) in
  s ← getitem df "DateReported";
  let df := setitem df "DateReported" (to_datetime s) in
  (* Financial columns are made numeric *)
  df ← for_each (λ df col,
          s ← getitem df col;
          Ok (setitem df col (fillna 0%Qc (to_numeric s))))
        df financial_cols;
  (* Feature engineering *)
  pi ← getitem df "PaidIndemnity";
  pe ← getitem df "PaidExpense";
  t ← add_series pi pe;
  ri ← getitem df "ReserveIndemnity";
  t ← add_series t ri;
  re ← getitem df "ReserveExpense";
  t ← add_series t re;
  let df := setitem df "TotalIncurred" t in
  pi ← getitem df "PaidIndemnity";
  pe ← getitem df "PaidExpense";
  t ← add_series pi pe;
  let df := setitem df "TotalPaid" t in
  (* Loss year *)
  d ← getitem df "DateOfLoss";
  y ← dt_year d;
  let df := setitem df "LossYear" y in
  Ok df.

(** *** Row-level reading of [load_data]

    What [load_data] does to one row, written down from the words of the
    specification (section 3): the four monetary cells are coerced to
    numbers with zero for whatever does not convert, the two totals are
    their sums, the loss year is the year of the parsed date of loss.
    [load_data_rowwise] below proves that the column-wise code computes
    exactly this in every row. *)

(** The amount a raw monetary cell stands for. *)
Definition amount (v : value) : Qc :=
  match to_numeric_value v with
  | Num q => q
  | _ => 0%Qc
  end.

(** The loss year of a raw date-of-loss cell. *)
Definition loss_year_of (v : value) : value :=
  match to_datetime_value v with
  | Timestamp d => Num (Qc_of_Z (year d))
  | _ => NaN
  end.


(** The frame [load_data] returns, column by column, given the six
    columns it reads. *)
Definition normalized (df : DataFrame) (dl dr pi pe ri re : series)
    : DataFrame :=
  let a := amount <$> pi in
  let b := amount <$> pe in
  let c := amount <$> ri in
  let d := amount <$> re in
  mkFrame (nrows df)
    (<["LossYear" := loss_year_of <$> dl]>
    (<["TotalPaid" := Num <$> zip_with Qcplus a b]>
    (<["TotalIncurred" :=
         Num <$> zip_with Qcplus (zip_with Qcplus (zip_with Qcplus a b) c) d]>
    (<["ReserveExpense" := Num <$> d]>
    (<["ReserveIndemnity" := Num <$> c]>
    (<["PaidExpense" := Num <$> b]>
    (<["PaidIndemnity" := Num <$> a]>
    (<["DateReported" := to_datetime dr]>
    (<["DateOfLoss" := to_datetime dl]> (columns df)))))))))).

(** The four KPIs, lines 50-56. *)
Definition compute_kpis (df : DataFrame) : result kpis :=
  ti ← getitem df "TotalIncurred";
  total_incurred ← series_sum ti;
  tp ← getitem df "TotalPaid";
  total_paid ← series_sum tp;
  st ← getitem df "ClaimStatus";
  let total_open_claims :=
    len (boolean_index df (eq_scalar st (Str "Open"))) in
  st ← getitem df "ClaimStatus";
  open ← getitem (boolean_index df (eq_scalar st (Str "Open")))
                 "TotalIncurred";
  open_claims_incurred ← series_sum open;
  avg_cost_per_open_claim ←
    (if decide (0 < total_open_claims)%nat
     then true_div open_claims_incurred total_open_claims
     else Ok 0%Qc);
  Ok (mkKpis total_incurred total_paid total_open_claims
             avg_cost_per_open_claim).

(** Line 94. *)
Definition cause_summary (df : DataFrame) : result (list (value * Qc)) :=
  g ← groupby_sum df "CauseOfLoss" "TotalIncurred";
  Ok (head 5 (sort_values_desc g)).

(** Line 113. *)
Definition status_counts (df : DataFrame) : result (list (value * nat)) :=
  s ← getitem df "ClaimStatus";
  Ok (value_counts s).

(** Line 129. *)
Definition location_summary (df : DataFrame) : result (list (value * Qc)) :=
  g ← groupby_sum df "Location" "TotalIncurred";
  Ok (head 5 (sort_values_desc g)).


(** The table at the bottom of the page: [display_df[column_order]].
    The cell formatting is presentation and is left out. *)
Definition display_df (df : DataFrame) : result DataFrame :=
  cols ← mapM (λ c, s ← getitem df c; Ok (c, s)) column_order;
  Ok (mkFrame (nrows df) (list_to_map cols)).



End Transformer.

(** ** Concrete converters and sample frames

    A small instance of the two converters (plain decimal integers and
    [YYYY-MM-DD] dates) on which the properties below are exercised. *)

Definition digit_of (c : ascii) : option Z :=
  let n := Z.of_N (N_of_ascii c) in
  if decide (48 ≤ n ≤ 57)%Z then Some (n - 48)%Z else None.

Fixpoint digits_from (acc : Z) (s : string) : option Z :=
  match s with
  | EmptyString => Some acc
  | String c s => d ← digit_of c; digits_from (10 * acc + d) s
  end.

Definition parse_digits (s : string) : option Z :=
  match s with
  | EmptyString => None
  | _ => digits_from 0 s
  end.

Definition plain_numeric (v : value) : option Qc :=
  match v with
  | Str s => Qc_of_Z <$> parse_digits s
  | _ => None
  end.

Definition iso_datetime (v : value) : option datetime :=
  match v with
  | Str s =>
      if decide (String.length s = 10%nat ∧
                 String.get 4 s = Some "-"%char ∧
                 String.get 7 s = Some "-"%char)
      then y ← parse_digits (String.substring 0 4 s);
           m ← parse_digits (String.substring 5 2 s);
           d ← parse_digits (String.substring 8 2 s);
           if decide (1 ≤ m ≤ 12 ∧ 1 ≤ d ≤ 31)%Z
           then Some (mkDatetime y m d) else None
      else None
  | _ => None
  end.

Definition frame_of (n : nat) (cols : list (string * series)) : DataFrame :=
  mkFrame n (list_to_map cols).

Definition plain_converters : Converters :=
  {| parse_datetime := iso_datetime; parse_numeric := plain_numeric |}.

(** The frame [load_data] makes of [df] with these converters ([df] itself
    if it raises). *)
Definition loaded (df : DataFrame) : DataFrame :=
  match load_data (H := plain_converters) (Ok df) with
  | Ok df' => df'
  | Raise _ => df
  end.


(** Rows with malformed cells: text and blanks in monetary columns, dates
    that do not parse, a missing status. *)
Definition messy_rows : DataFrame :=
  frame_of 4
    [("ClaimNumber", [Str "C1"; Str "C2"; Str "C3"; Str "C4"]);
     ("ClaimStatus", [Str "Open"; NaN; Str "Closed"; Str "Open"]);
     ("DateOfLoss",
        [Str "2022-03-01"; Str "not a date"; NaN; Str "2021-12-31"]);
     ("DateReported",
        [Str "2022-03-02"; Str "2022-13-45"; NaN; Str "2022-01-02"]);
     ("CauseOfLoss", [Str "Fire"; Str "Wind"; Str "Fire"; NaN]);
     ("Location", [Str "TX"; Str "TX"; Str "CA"; Str "NY"]);
     ("PaidIndemnity", [Str "N/A"; Str "250"; NaN; Str "40"]);
     ("PaidExpense", [Str "100"; NaN; Str "x"; Str "10"]);
     ("ReserveIndemnity", [Str "50"; Str "75"; Str "-"; Str "5"]);
     ("ReserveExpense", [NaN; Str "25"; Str " "; Str "5"])].

(** Seven claims in seven locations and six causes: more groups than the
    top-5 summaries keep. *)
Definition seven_rows : DataFrame :=
  frame_of 7
    [("ClaimNumber",
        [Str "C1"; Str "C2"; Str "C3"; Str "C4"; Str "C5"; Str "C6"; Str "C7"]);
     ("ClaimStatus",
        [Str "Open"; Str "Closed"; Str "Open"; Str "Closed"; Str "Open";
         Str "Closed"; Str "Open"]);
     ("DateOfLoss",
        [Str "2020-01-05"; Str "2021-02-06"; Str "2019-03-07";
         Str "2021-04-08"; Str "2020-05-09"; Str "2022-06-10";
         Str "2019-07-11"]);
     ("DateReported",
        [Str "2020-01-06"; Str "2021-02-07"; Str "2019-03-08";
         Str "2021-04-09"; Str "2020-05-10"; Str "2022-06-11";
         Str "2019-07-12"]);
     ("CauseOfLoss",
        [Str "Fire"; Str "Water"; Str "Wind"; Str "Theft"; Str "Hail";
         Str "Fire"; Str "Collision"]);
     ("Location",
        [Str "TX"; Str "CA"; Str "NY"; Str "FL"; Str "WA"; Str "IL";
         Str "OH"]);
     ("PaidIndemnity",
        [Str "100"; Str "700"; Str "300"; Str "50"; Str "900"; Str "20";
         Str "400"]);
     ("PaidExpense",
        [Str "10"; Str "10"; Str "10"; Str "10"; Str "10"; Str "10";
         Str "10"]);
     ("ReserveIndemnity",
        [Str "0"; Str "0"; Str "0"; Str "0"; Str "0"; Str "0"; Str "0"]);
     ("ReserveExpense",
        [Str "0"; Str "0"; Str "0"; Str "0"; Str "0"; Str "0"; Str "0"])].


(** ** Outcomes of a run *)




(** ** Further notions used in the statements *)







(** ** Display strings

    The format specifications of the script, on exact numbers:
    [f"{n:,}"] (line 77), [f"${x:,.0f}"] (lines 65, 71, 83 and 179) and
    [strftime('%Y-%m-%d')] (lines 174-175). A negative zero and the
    non-finite values of binary floating point have no counterpart here. *)

Definition digit_char (d : Z) : ascii := ascii_of_N (Z.to_N (48 + d)).

(** A number below 1000 on exactly three digits. *)
Definition three_digits (g : Z) : string :=
  String (digit_char (g / 100))
    (String (digit_char (g / 10 mod 10))
       (String (digit_char (g mod 10)) EmptyString)).

(** A number below 1000 without leading zeros. *)
Definition leading_digits (g : Z) : string :=
  if decide (g < 10)%Z then String (digit_char g) EmptyString
  else if decide (g < 100)%Z then
    String (digit_char (g / 10)) (String (digit_char (g mod 10)) EmptyString)
  else three_digits g.

Fixpoint group_thousands (fuel : nat) (n : Z) : string :=
  match fuel with
  | O => leading_digits n
  | S fuel =>
      if decide (n < 1000)%Z then leading_digits n
      else group_thousands fuel (n / 1000) +:+ "," +:+ three_digits (n mod 1000)
  end.

(** [f"{n:,}"] for a natural number [n]: its decimal digits, in groups of
    three separated by commas. *)
Definition format_thousands (n : Z) : string :=
  group_thousands (Z.to_nat (Z.log2 n)) n.

(** Rounding to the nearest integer, ties to the even one, as the [f]
    presentation type does. *)
Definition round_half_even (x : Qc) : Z :=
  let f := Qfloor x in
  let r := (x - Qc_of_Z f)%Qc in
  if decide (r < Q2Qc (1 # 2))%Qc then f
  else if decide (Q2Qc (1 # 2) < r)%Qc then (f + 1)%Z
  else if Z.even f then f else (f + 1)%Z.

(** [f"${x:,.0f}"] *)
Definition format_money (x : Qc) : string :=
  "$" +:+ (if decide (x < 0)%Qc then "-" else EmptyString)
      +:+ format_thousands (Z.abs (round_half_even x)).

(** The four metric values of lines 62-84. *)
Definition kpi_values (k : kpis) : list string :=
  [format_money (total_incurred k);
   format_money (total_paid k);
   format_thousands (Z.of_nat (total_open_claims k));
   format_money (avg_cost_per_open_claim k)].

(** Reading a grouped number back: the digits, commas skipped. *)
Fixpoint read_grouped (acc : Z) (s : string) : option Z :=
  match s with
  | EmptyString => Some acc
  | String c s =>
      if decide (c = ","%char) then read_grouped acc s
      else d ← digit_of c; read_grouped (10 * acc + d) s
  end.

(** * Properties *)

(** ** Lists in the error monad *)

Lemma mapM_Ok {A B : Type} (f : A → result B) (g : A → B) (l : list A) :
  Forall (λ x, f x = Ok (g x)) l → mapM f l = Ok (g <$> l).
Proof.
  induction 1 as [|x l Hx _ IH]; [done|].
  cbn. rewrite Hx. cbn. by rewrite IH.
Qed.

Lemma add_series_Num (a b : list Qc) :
  add_series (Num <$> a) (Num <$> b) = Ok (Num <$> zip_with Qcplus a b).
Proof.
  unfold add_series. revert b.
  induction a as [|x a IH]; intros [|y b]; try done.
  cbn. specialize (IH b). cbn in IH. by rewrite IH.
Qed.

Lemma series_sum_numeric (s : series) :
  Forall numeric s → series_sum s = Ok (sum_of s).
Proof.
  induction 1 as [|v s Hv _ IH]; [done|].
  destruct v as [|q| |]; try done; cbn; rewrite IH; cbn.
  - unfold sum_of. cbn. by rewrite Qcplus_0_l.
  - done.
Qed.

Lemma Forall_numeric_Num (l : list Qc) : Forall numeric (Num <$> l).
Proof. apply Forall_fmap, Forall_true. by intros q. Qed.


Lemma frame_of_well_formed (n : nat) (cols : list (string * series)) :
  Forall (λ p, length p.2 = n) cols → well_formed (frame_of n cols).
Proof.
  intros Hcols c s Hs%elem_of_list_to_map_2.
  by apply (proj1 (Forall_forall _ _) Hcols (c, s)).
Qed.

Section Properties.

Context `{Converters}.

Lemma fillna_to_numeric (s : series) :
  fillna 0%Qc (to_numeric s) = Num <$> (amount <$> s).
Proof.
  unfold fillna, to_numeric. rewrite <-!list_fmap_compose.
  apply list_fmap_ext. intros ? v ?. unfold amount, compose. cbn.
  unfold to_numeric_value. destruct v; try done; by destruct (parse_numeric _).
Qed.

Lemma dt_year_to_datetime (s : series) :
  dt_year (to_datetime s) = Ok (loss_year_of <$> s).
Proof.
  unfold dt_year, to_datetime.
  rewrite (mapM_Ok _ (λ v, match v with
                          | Timestamp d => Num (Qc_of_Z (year d))
                          | _ => NaN
                          end)).
  - by rewrite <-list_fmap_compose.
  - apply Forall_fmap, Forall_true. intros v. cbn. unfold to_datetime_value.
    destruct v; try done; by destruct (parse_datetime _).
Qed.

(** ** [load_data] in closed form *)

Ltac step_load :=
  repeat first
    [ rewrite add_series_Num
    | rewrite fillna_to_numeric
    | rewrite dt_year_to_datetime
    | progress simplify_map_eq
    | progress cbn ].

(** All six reads come first, in source order; once they have succeeded
    nothing in [load_data] can raise. *)
Lemma load_data_unfold (df : DataFrame) :
  load_data (Ok df) =
    dl ← getitem df "DateOfLoss";
    dr ← getitem df "DateReported";
    pi ← getitem df "PaidIndemnity";
    pe ← getitem df "PaidExpense";
    ri ← getitem df "ReserveIndemnity";
    re ← getitem df "ReserveExpense";
    Ok (normalized df dl dr pi pe ri re).
Proof.
  unfold load_data, getitem, setitem, financial_cols. cbn.
  destruct (columns df !! "DateOfLoss") as [dl|] eqn:Hdl; [|done].
  step_load.
  destruct (columns df !! "DateReported") as [dr|] eqn:Hdr; [|done].
  step_load.
  destruct (columns df !! "PaidIndemnity") as [pi|] eqn:Hpi; [|done].
  step_load.
  destruct (columns df !! "PaidExpense") as [pe|] eqn:Hpe; [|done].
  step_load.
  destruct (columns df !! "ReserveIndemnity") as [ri|] eqn:Hri; [|done].
  step_load.
  destruct (columns df !! "ReserveExpense") as [re|] eqn:Hre; [|done].
  by step_load.
Qed.

Lemma load_data_cases (df : DataFrame) :
  (∃ dl dr pi pe ri re,
      columns df !! "DateOfLoss" = Some dl ∧
      columns df !! "DateReported" = Some dr ∧
      columns df !! "PaidIndemnity" = Some pi ∧
      columns df !! "PaidExpense" = Some pe ∧
      columns df !! "ReserveIndemnity" = Some ri ∧
      columns df !! "ReserveExpense" = Some re ∧
      load_data (Ok df) = Ok (normalized df dl dr pi pe ri re)) ∨
  (∃ c, c ∈ load_cols ∧ columns df !! c = None ∧
        load_data (Ok df) = Raise (KeyError c)).
Proof.
  rewrite load_data_unfold. unfold getitem, load_cols, financial_cols.
  destruct (columns df !! "DateOfLoss") as [dl|] eqn:Hdl;
    [|right; exists "DateOfLoss"; set_solver].
  destruct (columns df !! "DateReported") as [dr|] eqn:Hdr;
    [|right; exists "DateReported"; set_solver].
  destruct (columns df !! "PaidIndemnity") as [pi|] eqn:Hpi;
    [|right; exists "PaidIndemnity"; set_solver].
  destruct (columns df !! "PaidExpense") as [pe|] eqn:Hpe;
    [|right; exists "PaidExpense"; set_solver].
  destruct (columns df !! "ReserveIndemnity") as [ri|] eqn:Hri;
    [|right; exists "ReserveIndemnity"; set_solver].
  destruct (columns df !! "ReserveExpense") as [re|] eqn:Hre;
    [|right; exists "ReserveExpense"; set_solver].
  left. by exists dl, dr, pi, pe, ri, re.
Qed.

Lemma load_data_inv (csv : result DataFrame) (df' : DataFrame) :
  load_data csv = Ok df' →
  ∃ df dl dr pi pe ri re,
    csv = Ok df ∧
    columns df !! "DateOfLoss" = Some dl ∧
    columns df !! "DateReported" = Some dr ∧
    columns df !! "PaidIndemnity" = Some pi ∧
    columns df !! "PaidExpense" = Some pe ∧
    columns df !! "ReserveIndemnity" = Some ri ∧
    columns df !! "ReserveExpense" = Some re ∧
    df' = normalized df dl dr pi pe ri re.
Proof.
  destruct csv as [df|e]; [|done]. intros Hload.
  destruct (load_data_cases df)
    as [(dl & dr & pi & pe & ri & re & ? & ? & ? & ? & ? & ? & Heq)
       |(c & _ & _ & Heq)]; rewrite Heq in Hload; [|done].
  exists df, dl, dr, pi, pe, ri, re. naive_solver.
Qed.


Lemma normalized_lookup (df : DataFrame) (dl dr pi pe ri re : series)
    (c : string) :
  columns (normalized df dl dr pi pe ri re) !! c =
    if decide (c = "LossYear") then Some (loss_year_of <$> dl)
    else if decide (c = "TotalPaid") then
      Some (Num <$> zip_with Qcplus (amount <$> pi) (amount <$> pe))
    else if decide (c = "TotalIncurred") then
      Some (Num <$> zip_with Qcplus
                      (zip_with Qcplus
                         (zip_with Qcplus (amount <$> pi) (amount <$> pe))
                         (amount <$> ri))
                      (amount <$> re))
    else if decide (c = "ReserveExpense") then Some (Num <$> (amount <$> re))
    else if decide (c = "ReserveIndemnity") then Some (Num <$> (amount <$> ri))
    else if decide (c = "PaidExpense") then Some (Num <$> (amount <$> pe))
    else if decide (c = "PaidIndemnity") then Some (Num <$> (amount <$> pi))
    else if decide (c = "DateReported") then Some (to_datetime dr)
    else if decide (c = "DateOfLoss") then Some (to_datetime dl)
    else columns df !! c.
Proof.
  unfold normalized. cbn -[decide].
  repeat (rewrite lookup_insert; case_decide; subst;
          [by repeat (case_decide; [done|])|]).
  by repeat (case_decide; [congruence|]).
Qed.

Section normalized_columns.
Variables (df : DataFrame) (dl dr pi pe ri re : series).
Let df' := normalized df dl dr pi pe ri re.

Lemma normalized_TotalPaid :
  columns df' !! "TotalPaid" =
    Some (Num <$> zip_with Qcplus (amount <$> pi) (amount <$> pe)).
Proof. unfold df'. by rewrite normalized_lookup. Qed.
Lemma normalized_TotalIncurred :
  columns df' !! "TotalIncurred" =
    Some (Num <$> zip_with Qcplus
                    (zip_with Qcplus
                       (zip_with Qcplus (amount <$> pi) (amount <$> pe))
                       (amount <$> ri))
                    (amount <$> re)).
Proof. unfold df'. by rewrite normalized_lookup. Qed.
Lemma normalized_untouched (c : string) :
  c ∉ (["LossYear"; "TotalPaid"; "TotalIncurred"] ++ financial_cols ++
       ["DateReported"; "DateOfLoss"])%list →
  columns df' !! c = columns df !! c.
Proof.
  intros Hc. unfold df'. rewrite normalized_lookup.
  repeat (case_decide; [subst; exfalso; apply Hc; set_solver|]). done.
Qed.
End normalized_columns.


Lemma load_data_raise (e : exn) : load_data (Raise e) = Raise e.
Proof. done. Qed.






(** Well-formedness is preserved: every column of the normalized frame
    has one cell per row. *)
Lemma loaded_well_formed (df df' : DataFrame) :
  load_data (Ok df) = Ok df' → well_formed df → well_formed df'.
Proof.
  intros (df0 & dl & dr & pi & pe & ri & re & [= <-] &
          Hdl & Hdr & Hpi & Hpe & Hri & Hre & ->)%load_data_inv Hwf c s.
  rewrite normalized_lookup.
  apply Hwf in Hdl, Hdr, Hpi, Hpe, Hri, Hre.
  repeat case_decide; intros Hs; [injection Hs as <-..|by apply Hwf in Hs];
    cbn; unfold to_datetime;
    rewrite ?length_fmap, ?length_zip_with, ?length_fmap; lia.
Qed.
End Properties.

(** ** Coercion of the monetary columns and the derived totals *)

Section Load.

Context `{Converters}.





End Load.

Lemma loaded_messy_rows :
  load_data (H := plain_converters) (Ok messy_rows) = Ok (loaded messy_rows).
Proof. vm_compute. reflexivity. Qed.




(** ** Determinism and independence of rows *)




Lemma take_rows_lookup {A : Type} (idx : list nat) (s : list A) (k : nat) :
  Forall (λ i, i < length s)%nat idx →
  take_rows idx s !! k = idx !! k ≫= (s !!.).
Proof.
  unfold take_rows. intros Hidx. revert k.
  induction Hidx as [|i idx Hi _ IH]; intros k; [done|].
  cbn. destruct (lookup_lt_is_Some_2 s i Hi) as [x Hx]. rewrite Hx.
  destruct k as [|k]; cbn; [by rewrite Hx|apply IH].
Qed.

(** Row [k] of [df.iloc[idx]] is row [idx[k]] of [df]. *)
Lemma cell_iloc (idx : list nat) (df : DataFrame) (c : string) (k : nat) :
  well_formed df → Forall (λ i, i < nrows df)%nat idx →
  cell (iloc idx df) c k = idx !! k ≫= cell df c.
Proof.
  intros Hwf Hidx. unfold cell, iloc. cbn. rewrite lookup_fmap.
  destruct (columns df !! c) as [s|] eqn:Hs; cbn.
  - apply Hwf in Hs. rewrite take_rows_lookup by by rewrite Hs.
    by destruct (idx !! k).
  - by destruct (idx !! k).
Qed.

Section Determinism.

Context `{Converters}.





End Determinism.



(** ** Key performance indicators *)

Lemma select_Forall {A : Type} (P : A → Prop) (mask : list bool) (l : list A) :
  Forall P l → Forall P (select mask l).
Proof.
  intros Hl. revert mask.
  induction Hl as [|x l Hx _ IH]; intros [|[] mask]; cbn; auto.
Qed.

Lemma getitem_boolean_index (df : DataFrame) (mask : list bool) (c : string) :
  getitem (boolean_index df mask) c = select mask <$> getitem df c.
Proof.
  unfold getitem, boolean_index. cbn. rewrite lookup_fmap.
  by destruct (columns df !! c).
Qed.

(** Selecting by the mask [k == g] is keeping the rows whose key is [g]. *)
Lemma select_eq_scalar (k v : series) (g : value) :
  g ≠ NaN →
  select (eq_scalar k g) v = (rows_with g k v).*2.
Proof.
  intros Hg. unfold eq_scalar, rows_with. revert v.
  induction k as [|x k IH]; intros [|y v]; try done.
  rewrite fmap_cons. change (zip (x :: k) (y :: v)) with ((x, y) :: zip k v).
  rewrite filter_cons. cbn [select fst]. rewrite IH.
  destruct (decide (x = g)) as [->|Hne].
  - rewrite bool_decide_eq_true_2 by done. by destruct g.
  - rewrite bool_decide_eq_false_2 by done. by rewrite andb_false_r.
Qed.

Lemma length_select_seq (mask : list bool) (start n : nat) :
  length mask = n →
  length (select mask (seq start n)) = length (filter (λ b, b = true) mask).
Proof.
  revert start n. induction mask as [|b mask IH]; intros start n <-; [done|].
  cbn [length seq select]. rewrite filter_cons. destruct b.
  - rewrite decide_True by done. cbn. f_equal. by apply IH.
  - rewrite decide_False by done. by apply IH.
Qed.

Lemma length_filter_eq_scalar (k : series) (g : value) :
  g ≠ NaN →
  length (filter (λ b, b = true) (eq_scalar k g))
    = length (filter (λ v, v = g) k).
Proof.
  intros Hg. unfold eq_scalar.
  induction k as [|x k IH]; [done|].
  rewrite fmap_cons, !filter_cons.
  destruct (decide (x = g)) as [->|Hne].
  - rewrite bool_decide_eq_true_2 by done.
    destruct g; [done|..]; cbn [isna negb andb];
      rewrite decide_True by done; cbn [length]; by rewrite IH.
  - rewrite bool_decide_eq_false_2 by done. rewrite andb_false_r.
    by rewrite decide_False by done.
Qed.

(** The number of rows [df[df[col] == g]] has. *)
Lemma len_boolean_index (df : DataFrame) (k : series) (g : value) :
  g ≠ NaN → length k = nrows df →
  len (boolean_index df (eq_scalar k g)) = length (filter (λ v, v = g) k).
Proof.
  intros Hg Hlen. unfold len, boolean_index. cbn.
  rewrite length_select_seq, length_filter_eq_scalar; [done..|].
  unfold eq_scalar. by rewrite length_fmap.
Qed.

Lemma true_div_pos (a : Qc) (n : nat) :
  (0 < n)%nat → true_div a n = Ok (a / Qc_of_Z (Z.of_nat n))%Qc.
Proof. by destruct n; [lia|]. Qed.

Section Kpis.

Context `{Converters}.

(** [compute_kpis] on any frame whose two total columns are numeric. *)
Lemma compute_kpis_numeric (df : DataFrame) (ti tp st : series) :
  columns df !! "TotalIncurred" = Some ti →
  columns df !! "TotalPaid" = Some tp →
  columns df !! "ClaimStatus" = Some st →
  Forall numeric ti → Forall numeric tp →
  let n := len (boolean_index df (eq_scalar st (Str "Open"))) in
  let open := sum_of (select (eq_scalar st (Str "Open")) ti) in
  compute_kpis df =
    Ok (mkKpis (sum_of ti) (sum_of tp) n
          (if decide (0 < n)%nat then (open / Qc_of_Z (Z.of_nat n))%Qc
           else 0%Qc)).
Proof.
  intros Hti Htp Hst Hnti Hntp n open. unfold compute_kpis, getitem.
  rewrite Hti. cbn. rewrite (series_sum_numeric ti) by done. cbn.
  rewrite Htp. cbn. rewrite (series_sum_numeric tp) by done. cbn.
  rewrite Hst. cbn. rewrite lookup_fmap, Hti. cbn.
  rewrite series_sum_numeric by by apply select_Forall. cbn.
  change (length (select (eq_scalar st (Str "Open")) (seq 0 (nrows df))))
    with n.
  destruct (decide (0 < n)%nat) as [Hn|Hn]; [|done].
  by rewrite true_div_pos.
Qed.



(** The KPIs of a normalized frame. *)
Lemma loaded_kpis (df df' : DataFrame) (st : series) :
  well_formed df → load_data (Ok df) = Ok df' →
  columns df !! "ClaimStatus" = Some st →
  ∃ ti tp : series,
    columns df' !! "TotalIncurred" = Some ti ∧
    columns df' !! "TotalPaid" = Some tp ∧
    columns df' !! "ClaimStatus" = Some st ∧
    Forall numeric ti ∧ length ti = length st ∧
    let n := length (filter (λ v, v = Str "Open") st) in
    let open := sum_of ((rows_with (Str "Open") st ti).*2) in
    compute_kpis df' =
      Ok (mkKpis (sum_of ti) (sum_of tp) n
            (if decide (0 < n)%nat then (open / Qc_of_Z (Z.of_nat n))%Qc
             else 0%Qc)).
Proof.
  intros Hwf Hload Hst.
  pose proof (loaded_well_formed _ _ Hload Hwf) as Hwf'.
  apply load_data_inv in Hload
    as (df0 & dl & dr & pi & pe & ri & re & [= <-] &
        Hdl & Hdr & Hpi & Hpe & Hri & Hre & ->).
  eexists _, _.
  split; [apply normalized_TotalIncurred|].
  split; [apply normalized_TotalPaid|].
  assert (columns (normalized df dl dr pi pe ri re) !! "ClaimStatus"
          = Some st) as Hst'.
  { rewrite normalized_untouched; [done|].
    unfold financial_cols. cbn [app].
    rewrite !not_elem_of_cons. split_and!; try done. apply not_elem_of_nil. }
  split; [done|]. split; [apply Forall_numeric_Num|].
  split.
  { rewrite (Hwf' _ _ (normalized_TotalIncurred _ _ _ _ _ _ _)).
    by rewrite (Hwf' _ _ Hst'). }
  intros n open.
  rewrite (compute_kpis_numeric _ _ _ st
             (normalized_TotalIncurred _ _ _ _ _ _ _)
             (normalized_TotalPaid _ _ _ _ _ _ _) Hst')
    by apply Forall_numeric_Num.
  rewrite len_boolean_index, select_eq_scalar; [done..|].
  by rewrite (Hwf' _ _ Hst').
Qed.



End Kpis.

Lemma well_formed_messy_rows : well_formed messy_rows.
Proof. apply frame_of_well_formed. by repeat constructor. Qed.




(** ** Status counts *)

Lemma isna_false (v : value) : isna v = false ↔ v ≠ NaN.
Proof. by destruct v. Qed.

(** Counting the occurrences of each of a duplicate-free list of keys counts
    the cells that are one of the keys. *)
Lemma sum_counts_NoDup (ks l : list value) :
  NoDup ks →
  sum_list ((λ g, length (filter (λ v, v = g) l)) <$> ks)
    = length (filter (λ v, v ∈ ks) l).
Proof.
  induction 1 as [|g ks Hg _ IH]; cbn.
  - induction l as [|x l IHl]; [done|].
    rewrite filter_cons_False; [done|apply not_elem_of_nil].
  - rewrite IH. clear IH.
    induction l as [|x l IHl]; [done|].
    rewrite !filter_cons.
    repeat case_decide; subst; cbn; try lia; exfalso;
      match goal with
      | Hc : context [_ ∈ _ :: _] |- _ => rewrite elem_of_cons in Hc
      end; intuition congruence.
Qed.

Lemma filter_ext_elem {A : Type} (P Q : A → Prop)
    `{∀ x, Decision (P x), ∀ x, Decision (Q x)} (l : list A) :
  (∀ x, x ∈ l → P x ↔ Q x) → filter P l = filter Q l.
Proof.
  induction l as [|x l IH]; intros HPQ; [done|].
  rewrite !filter_cons, IH by (intros y Hy; apply HPQ; by right).
  destruct (HPQ x) as [HP HQ]; [by left|].
  by repeat case_decide; intuition.
Qed.

Lemma value_counts_keys (s : series) :
  (value_counts s).*1 ≡ₚ remove_dups (filter (λ v, isna v = false) s).
Proof.
  unfold value_counts. rewrite merge_sort_Permutation.
  rewrite <-list_fmap_compose. by rewrite list_fmap_id.
Qed.


Lemma value_counts_sum (s : series) :
  sum_list (value_counts s).*2 = length (filter (λ v, v ≠ NaN) s).
Proof.
  unfold value_counts. rewrite merge_sort_Permutation.
  rewrite <-list_fmap_compose.
  rewrite (list_fmap_ext _ (λ g, length (filter (λ v, v = g) s)) _)
    by done.
  rewrite sum_counts_NoDup by apply NoDup_remove_dups.
  f_equal. apply filter_ext_elem. intros v Hv.
  rewrite elem_of_remove_dups, list_elem_of_filter, isna_false. tauto.
Qed.

Section StatusCounts.

Context `{Converters}.

(** C10. A record without a claim status is no key of the status counts
    and is not selected as an open claim; the counts add up to the number
    of records that have a status, which is strictly less than the number
    of records as soon as one status is missing. *)
Theorem null_status_not_counted (df df' : DataFrame) (st : series) :
  well_formed df → load_data (Ok df) = Ok df' →
  columns df !! "ClaimStatus" = Some st →
  ∃ (counts : list (value * nat)) (k : kpis),
    status_counts df' = Ok counts ∧
    compute_kpis df' = Ok k ∧
    (NaN ∉ counts.*1) ∧
    (∀ i, st !! i = Some NaN →
          eq_scalar st (Str "Open") !! i = Some false) ∧
    total_open_claims k = length (filter (λ v, v = Str "Open") st) ∧
    sum_list counts.*2 = length (filter (λ v, v ≠ NaN) st) ∧
    (NaN ∈ st → (sum_list counts.*2 < nrows df')%nat).
Proof.
  intros Hwf Hload Hst.
  destruct (loaded_kpis _ _ _ Hwf Hload Hst)
    as (ti & tp & Hti & Htp & Hst' & _ & _ & Hk).
  cbn zeta in Hk.
  exists (value_counts st). eexists.
  split; [unfold status_counts, getitem; by rewrite Hst'|].
  split; [exact Hk|]. split_and!.
  - rewrite value_counts_keys, elem_of_remove_dups, list_elem_of_filter.
    by intros [? _].
  - intros i Hi. unfold eq_scalar. by rewrite list_lookup_fmap, Hi.
  - done.
  - apply value_counts_sum.
  - intros Hnan. rewrite value_counts_sum.
    rewrite <-(loaded_well_formed _ _ Hload Hwf _ _ Hst').
    by apply (length_filter_lt _ _ NaN); [|intros []].
Qed.

End StatusCounts.

Lemma null_status_not_counted_witness :
  well_formed messy_rows ∧
  load_data (H := plain_converters) (Ok messy_rows) = Ok (loaded messy_rows) ∧
  columns messy_rows !! "ClaimStatus"
    = Some [Str "Open"; NaN; Str "Closed"; Str "Open"] ∧
  NaN ∈ [Str "Open"; NaN; Str "Closed"; Str "Open"] ∧
  ∃ counts : list (value * nat),
    status_counts (loaded messy_rows) = Ok counts ∧
    (sum_list counts.*2 < nrows (loaded messy_rows))%nat.
Proof.
  split; [apply well_formed_messy_rows|].
  split; [apply loaded_messy_rows|].
  split; [vm_compute; reflexivity|].
  assert (NaN ∈ [Str "Open"; NaN; Str "Closed"; Str "Open"]) as Hnan
    by (right; left).
  split; [exact Hnan|].
  destruct (null_status_not_counted (H := plain_converters)
              messy_rows (loaded messy_rows)
              [Str "Open"; NaN; Str "Closed"; Str "Open"])
    as (counts & k & Hc & _ & _ & _ & _ & _ & Hlt).
  - apply well_formed_messy_rows.
  - apply loaded_messy_rows.
  - vm_compute. reflexivity.
  - exists counts. split; [exact Hc|by apply Hlt].
Defined.

(** ** Grouped sums *)

Lemma string_leb_total (s t : string) :
  String.leb s t = true ∨ String.leb t s = true.
Proof.
  unfold String.leb. rewrite (String.compare_antisym s t).
  destruct (String.compare t s); cbn; auto.
Qed.

Global Instance value_le_total : Total value_le.
Proof.
  intros [|x|s|d] [|y|t|e]; cbn; try lia.
  - apply (total Qcle).
  - apply string_leb_total.
  - unfold datetime_le. lia.
Qed.

Global Instance by_index_total {V : Type} : Total (@by_index V).
Proof. intros a b. apply (total value_le). Qed.

Global Instance by_value_desc_total {K : Type} : Total (@by_value_desc K).
Proof. intros a b. unfold by_value_desc. apply (total Qcle). Qed.

Global Instance by_value_desc_trans {K : Type} : Transitive (@by_value_desc K).
Proof. intros a b c Hab Hbc. unfold by_value_desc in *. by etrans. Qed.

(** The values of the rows whose key is [g]. *)
Lemma group_values_rows (k v : series) (g : value) :
  group_values k v g = (rows_with g k v).*2.
Proof.
  unfold group_values, rows_with. revert v.
  induction k as [|x k IH]; intros [|y v]; try done.
  rewrite fmap_cons. change (zip (x :: k) (y :: v)) with ((x, y) :: zip k v).
  rewrite filter_cons. cbn [select fst]. rewrite IH.
  destruct (decide (x = g)) as [->|Hne].
  - by rewrite bool_decide_eq_true_2.
  - by rewrite bool_decide_eq_false_2.
Qed.

Lemma group_keys_perm (k : series) :
  group_keys k ≡ₚ remove_dups (filter (λ v, isna v = false) k).
Proof. apply merge_sort_Permutation. Qed.

Lemma group_keys_NoDup (k : series) : NoDup (group_keys k).
Proof. rewrite group_keys_perm. apply NoDup_remove_dups. Qed.

Lemma elem_of_group_keys (k : series) (g : value) :
  g ∈ group_keys k ↔ g ≠ NaN ∧ g ∈ k.
Proof.
  by rewrite group_keys_perm, elem_of_remove_dups, list_elem_of_filter,
    isna_false.
Qed.

Lemma group_keys_Sorted (k : series) : Sorted value_le (group_keys k).
Proof. apply (Sorted_merge_sort _). Qed.

(** [groupby(key)[col].sum()] over a numeric column returns one pair per
    group key, with the sum of the column over the rows of the group. *)
Lemma groupby_sum_numeric (df : DataFrame) (key col : string) (k v : series) :
  columns df !! key = Some k → columns df !! col = Some v →
  Forall numeric v →
  groupby_sum df key col =
    Ok ((λ g, (g, sum_of ((rows_with g k v).*2))) <$> group_keys k).
Proof.
  intros Hk Hv Hnum. unfold groupby_sum, getitem. rewrite Hk, Hv. cbn.
  apply mapM_Ok, Forall_true. intros g.
  rewrite series_sum_numeric; [by rewrite group_values_rows|].
  by apply select_Forall.
Qed.

Lemma groupby_sum_keys (k v : series) :
  ((λ g, (g, sum_of ((rows_with g k v).*2))) <$> group_keys k).*1
    = group_keys k.
Proof. rewrite <-list_fmap_compose. apply list_fmap_id. Qed.

(** The [n] largest groups of a grouped sum. *)
Lemma head_sort_values_top (n : nat) (k v : series) :
  is_top_groups n k v
    (head n (sort_values_desc
               ((λ g, (g, sum_of ((rows_with g k v).*2))) <$> group_keys k))).
Proof.
  set (groups := (λ g, (g, sum_of ((rows_with g k v).*2))) <$> group_keys k).
  set (sorted := sort_values_desc groups).
  assert (sorted ≡ₚ groups) as Hperm by apply merge_sort_Permutation.
  assert (StronglySorted by_value_desc sorted) as Hsorted
    by apply (StronglySorted_merge_sort _).
  assert (∀ g s, (g, s) ∈ sorted ↔
                 (g ≠ NaN ∧ g ∈ k) ∧ s = sum_of ((rows_with g k v).*2))
    as Helem.
  { intros g s. rewrite Hperm. unfold groups. rewrite list_elem_of_fmap.
    split.
    - intros (g' & [= -> ->] & Hg). by apply elem_of_group_keys in Hg.
    - intros [Hg ->]. exists g. by rewrite elem_of_group_keys. }
  assert (NoDup sorted.*1) as Hnodup.
  { rewrite Hperm. unfold groups. rewrite groupby_sum_keys.
    apply group_keys_NoDup. }
  unfold head. rewrite <-(take_drop n sorted) in Hsorted, Hnodup.
  rewrite fmap_app in Hnodup. apply NoDup_app in Hnodup as (Hnd & Hdisj & _).
  split_and!.
  - rewrite length_take. lia.
  - rewrite length_take, Hperm. unfold groups.
    rewrite length_fmap, group_keys_perm.
    by rewrite (list_filter_iff _ (λ g, g ≠ NaN)) by apply isna_false.
  - done.
  - intros g s Hin%subseteq_take. apply Helem in Hin. tauto.
  - by apply StronglySorted_app_1_l in Hsorted.
  - intros g p Hg Hk Hnot Hp.
    assert ((g, sum_of ((rows_with g k v).*2)) ∈ sorted) as Hin
      by by apply Helem.
    rewrite <-(take_drop n sorted) in Hin.
    apply elem_of_app in Hin as [Hin|Hin].
    + destruct Hnot. apply list_elem_of_fmap.
      by exists (g, sum_of ((rows_with g k v).*2)).
    + apply (StronglySorted_app_1_elem_of _ _ _ _ _ Hsorted Hp Hin).
Qed.

Section Summaries.

Context `{Converters}.

(** A column [load_data] neither reads nor writes is the same before and
    after. *)
Lemma loaded_untouched (df df' : DataFrame) (c : string) :
  load_data (Ok df) = Ok df' →
  c ∉ (["LossYear"; "TotalPaid"; "TotalIncurred"] ++ financial_cols ++
       ["DateReported"; "DateOfLoss"])%list →
  columns df' !! c = columns df !! c.
Proof.
  intros (df0 & dl & dr & pi & pe & ri & re & [= <-] & _ & _ & _ & _ & _ & _
          & ->)%load_data_inv Hc.
  by apply normalized_untouched.
Qed.

Lemma loaded_total_incurred_numeric (df df' : DataFrame) :
  load_data (Ok df) = Ok df' →
  ∃ ti, columns df' !! "TotalIncurred" = Some ti ∧ Forall numeric ti.
Proof.
  intros (df0 & dl & dr & pi & pe & ri & re & [= <-] & _ & _ & _ & _ & _ & _
          & ->)%load_data_inv.
  eexists. split; [apply normalized_TotalIncurred|apply Forall_numeric_Num].
Qed.

(** C5. The two top-5 summaries of a normalized frame return at most five
    (group value, summed [TotalIncurred]) pairs, one per distinct cause
    (resp. location), in descending order of the sums. *)
Theorem top5_by_group (df df' : DataFrame) (causes locations : series) :
  load_data (Ok df) = Ok df' →
  columns df !! "CauseOfLoss" = Some causes →
  columns df !! "Location" = Some locations →
  ∃ (ti : series) (by_cause by_location : list (value * Qc)),
    columns df' !! "TotalIncurred" = Some ti ∧
    cause_summary df' = Ok by_cause ∧
    location_summary df' = Ok by_location ∧
    is_top_groups 5 causes ti by_cause ∧
    is_top_groups 5 locations ti by_location.
Proof.
  intros Hload Hcauses Hlocs.
  destruct (loaded_total_incurred_numeric _ _ Hload) as (ti & Hti & Hnum).
  assert (columns df' !! "CauseOfLoss" = Some causes) as Hc.
  { rewrite (loaded_untouched _ _ _ Hload); [done|].
    unfold financial_cols. cbn [app].
    rewrite !not_elem_of_cons. split_and!; try done. apply not_elem_of_nil. }
  assert (columns df' !! "Location" = Some locations) as Hl.
  { rewrite (loaded_untouched _ _ _ Hload); [done|].
    unfold financial_cols. cbn [app].
    rewrite !not_elem_of_cons. split_and!; try done. apply not_elem_of_nil. }
  eexists ti, _, _. split; [done|].
  unfold cause_summary, location_summary.
  rewrite (groupby_sum_numeric _ _ _ _ _ Hc Hti Hnum),
          (groupby_sum_numeric _ _ _ _ _ Hl Hti Hnum). cbn.
  split; [done|]. split; [done|].
  split; apply head_sort_values_top.
Qed.

End Summaries.

Lemma loaded_seven_rows :
  load_data (H := plain_converters) (Ok seven_rows) = Ok (loaded seven_rows).
Proof. vm_compute. reflexivity. Qed.

Lemma top5_by_group_witness :
  load_data (H := plain_converters) (Ok seven_rows) = Ok (loaded seven_rows) ∧
  columns seven_rows !! "CauseOfLoss"
    = Some [Str "Fire"; Str "Water"; Str "Wind"; Str "Theft"; Str "Hail";
            Str "Fire"; Str "Collision"] ∧
  columns seven_rows !! "Location"
    = Some [Str "TX"; Str "CA"; Str "NY"; Str "FL"; Str "WA"; Str "IL";
            Str "OH"] ∧
  ∃ by_cause by_location : list (value * Qc),
    cause_summary (loaded seven_rows) = Ok by_cause ∧
    location_summary (loaded seven_rows) = Ok by_location ∧
    by_cause.*1
      = [Str "Hail"; Str "Water"; Str "Collision"; Str "Wind"; Str "Fire"] ∧
    by_location.*1 = [Str "WA"; Str "CA"; Str "OH"; Str "NY"; Str "TX"] ∧
    StronglySorted (λ a b, (b.2 ≤ a.2)%Qc) by_cause ∧
    StronglySorted (λ a b, (b.2 ≤ a.2)%Qc) by_location.
Proof.
  split; [apply loaded_seven_rows|].
  split; [vm_compute; reflexivity|].
  split; [vm_compute; reflexivity|].
  destruct (top5_by_group (H := plain_converters) seven_rows
              (loaded seven_rows)
              [Str "Fire"; Str "Water"; Str "Wind"; Str "Theft"; Str "Hail";
               Str "Fire"; Str "Collision"]
              [Str "TX"; Str "CA"; Str "NY"; Str "FL"; Str "WA"; Str "IL";
               Str "OH"])
    as (ti & by_cause & by_location & _ & Hc & Hl & Htc & Htl).
  - apply loaded_seven_rows.
  - vm_compute. reflexivity.
  - vm_compute. reflexivity.
  - exists by_cause, by_location.
    destruct Htc as (_ & _ & _ & _ & Hsc & _).
    destruct Htl as (_ & _ & _ & _ & Hsl & _).
    split; [exact Hc|]. split; [exact Hl|].
    split.
    { assert (Ok by_cause = cause_summary (loaded seven_rows)) as Heq by done.
      vm_compute in Heq. by injection Heq as ->. }
    split.
    { assert (Ok by_location = location_summary (loaded seven_rows)) as Heq
        by done.
      vm_compute in Heq. by injection Heq as ->. }
    by split.
Defined.

(** ** Incurred by loss year *)




Section LossYear.

Context `{Converters}.




End LossYear.

Lemma has_columns_Forall (cols : list string) (df : DataFrame) :
  Forall (λ c, is_Some (columns df !! c)) cols → has_columns cols df.
Proof. intros Hall c Hc. by apply (proj1 (Forall_forall _ _) Hall). Qed.



(** ** Failure outcomes *)








Section Outcomes.

Context `{Converters}.











Lemma missing_column (cols : list string) (df : DataFrame) :
  ¬ has_columns cols df → ∃ c, c ∈ cols ∧ columns df !! c = None.
Proof.
  intros Hnot.
  destruct (decide (Forall (λ c, is_Some (columns df !! c)) cols))
    as [Hall|Hex].
  - destruct Hnot. by apply has_columns_Forall.
  - apply not_Forall_Exists in Hex; [|apply _].
    apply Exists_exists in Hex as (c & Hc & Hnone).
    exists c. split; [done|]. by apply eq_None_not_Some.
Qed.


End Outcomes.


(** * Further properties of the script *)

(** ** Which error a run reports *)




Section Errors.

Context `{Converters}.







End Errors.



(** ** What [load_data] keeps and what it adds *)

Section Shape.

Context `{Converters}.

(** X2. [load_data] keeps the number of rows, adds exactly the three
    columns [TotalIncurred], [TotalPaid] and [LossYear] to the columns of
    the table, changes no column but these three, the two dates and the four
    monetary ones, keeps the length of every column that was there, and
    returns a well-formed frame for a well-formed one. *)
Theorem load_data_frame_shape (df df' : DataFrame) :
  load_data (Ok df) = Ok df' →
  nrows df' = nrows df ∧
  dom (columns df')
    = dom (columns df) ∪ {["TotalIncurred"; "TotalPaid"; "LossYear"]} ∧
  (∀ c, c ∉ (["LossYear"; "TotalPaid"; "TotalIncurred"] ++ financial_cols ++
             ["DateReported"; "DateOfLoss"])%list →
        columns df' !! c = columns df !! c) ∧
  (∀ c s, columns df !! c = Some s →
          ∃ s', columns df' !! c = Some s' ∧
                (c ∉ ["LossYear"; "TotalPaid"; "TotalIncurred"] →
                 length s' = length s)) ∧
  (well_formed df → well_formed df').
Proof.
  intros Hload. split_and!.
  - apply load_data_inv in Hload
      as (df0 & dl & dr & pi & pe & ri & re & [= <-] & _ & _ & _ & _ & _ & _
          & ->).
    done.
  - apply load_data_inv in Hload
      as (df0 & dl & dr & pi & pe & ri & re & [= <-] &
          Hdl & Hdr & Hpi & Hpe & Hri & Hre & ->).
    apply elem_of_dom_2 in Hdl, Hdr, Hpi, Hpe, Hri, Hre.
    unfold normalized. cbn. rewrite !dom_insert_L. set_solver.
  - intros c Hc. by apply (loaded_untouched _ _ _ Hload).
  - intros c s Hs.
    apply load_data_inv in Hload
      as (df0 & dl & dr & pi & pe & ri & re & [= <-] &
          Hdl & Hdr & Hpi & Hpe & Hri & Hre & ->).
    rewrite normalized_lookup.
    repeat case_decide; subst; try (by exists s);
      (eexists; split; [done|]); intros Hnot;
      try (by destruct Hnot; rewrite !elem_of_cons; tauto);
      unfold to_datetime; rewrite ?length_fmap; congruence.
  - by apply loaded_well_formed.
Qed.

Lemma to_datetime_value_idemp (v : value) :
  to_datetime_value (to_datetime_value v) = to_datetime_value v.
Proof.
  unfold to_datetime_value. destruct v; try done; by destruct (parse_datetime _).
Qed.

Lemma to_datetime_idemp (s : series) :
  to_datetime (to_datetime s) = to_datetime s.
Proof.
  unfold to_datetime. rewrite <-list_fmap_compose.
  apply list_fmap_ext. intros i v _. apply to_datetime_value_idemp.
Qed.

Lemma loss_year_of_to_datetime (s : series) :
  loss_year_of <$> to_datetime s = loss_year_of <$> s.
Proof.
  unfold to_datetime. rewrite <-list_fmap_compose.
  apply list_fmap_ext. intros i v _. cbn. unfold loss_year_of.
  by rewrite to_datetime_value_idemp.
Qed.

Lemma amount_Num (l : list Qc) : amount <$> (Num <$> l) = l.
Proof.
  rewrite <-list_fmap_compose. rewrite <-(list_fmap_id l) at 2.
  by apply list_fmap_ext.
Qed.

(** X3. Normalizing a normalized frame changes nothing: [load_data] maps
    its own result to itself. *)
Theorem load_data_idempotent (df df' : DataFrame) :
  load_data (Ok df) = Ok df' → load_data (Ok df') = Ok df'.
Proof.
  intros (df0 & dl & dr & pi & pe & ri & re & [= <-] &
          Hdl & Hdr & Hpi & Hpe & Hri & Hre & ->)%load_data_inv.
  set (df' := normalized df dl dr pi pe ri re).
  assert (columns df' !! "DateOfLoss" = Some (to_datetime dl)) as Hdl'
    by (unfold df'; by rewrite normalized_lookup).
  assert (columns df' !! "DateReported" = Some (to_datetime dr)) as Hdr'
    by (unfold df'; by rewrite normalized_lookup).
  assert (columns df' !! "PaidIndemnity" = Some (Num <$> (amount <$> pi)))
    as Hpi' by (unfold df'; by rewrite normalized_lookup).
  assert (columns df' !! "PaidExpense" = Some (Num <$> (amount <$> pe)))
    as Hpe' by (unfold df'; by rewrite normalized_lookup).
  assert (columns df' !! "ReserveIndemnity" = Some (Num <$> (amount <$> ri)))
    as Hri' by (unfold df'; by rewrite normalized_lookup).
  assert (columns df' !! "ReserveExpense" = Some (Num <$> (amount <$> re)))
    as Hre' by (unfold df'; by rewrite normalized_lookup).
  destruct (load_data_cases df')
    as [(dl' & dr' & pi' & pe' & ri' & re' & H1 & H2 & H3 & H4 & H5 & H6 & ->)
       |(c & Hc & Hnone & _)].
  - rewrite Hdl' in H1. rewrite Hdr' in H2. rewrite Hpi' in H3.
    rewrite Hpe' in H4. rewrite Hri' in H5. rewrite Hre' in H6.
    injection H1 as <-. injection H2 as <-. injection H3 as <-.
    injection H4 as <-. injection H5 as <-. injection H6 as <-.
    f_equal.
    assert (nrows (normalized df' (to_datetime dl) (to_datetime dr)
                     (Num <$> (amount <$> pi)) (Num <$> (amount <$> pe))
                     (Num <$> (amount <$> ri)) (Num <$> (amount <$> re)))
            = nrows df') as Hrows by done.
    assert (columns (normalized df' (to_datetime dl) (to_datetime dr)
                       (Num <$> (amount <$> pi)) (Num <$> (amount <$> pe))
                       (Num <$> (amount <$> ri)) (Num <$> (amount <$> re)))
            = columns df') as Hcolumns.
    { apply map_eq. intros c. rewrite normalized_lookup.
      rewrite !amount_Num, loss_year_of_to_datetime, !to_datetime_idemp.
      repeat (case_decide; [subst c; unfold df'; by rewrite normalized_lookup|]).
      done. }
    destruct (normalized df' _ _ _ _ _ _), df'. cbn in *. congruence.
  - unfold load_cols, financial_cols in Hc. cbn in Hc.
    repeat (apply elem_of_cons in Hc as [->|Hc]); try congruence.
    by apply elem_of_nil in Hc.
Qed.

End Shape.

Lemma load_data_frame_shape_witness :
  load_data (H := plain_converters) (Ok messy_rows) = Ok (loaded messy_rows) ∧
  nrows (loaded messy_rows) = 4%nat ∧
  well_formed (loaded messy_rows).
Proof.
  split; [apply loaded_messy_rows|].
  destruct (load_data_frame_shape (H := plain_converters)
              messy_rows (loaded messy_rows) loaded_messy_rows)
    as (Hrows & _ & _ & _ & Hwf).
  split; [exact Hrows|]. apply Hwf, well_formed_messy_rows.
Defined.

Lemma load_data_idempotent_witness :
  load_data (H := plain_converters) (Ok messy_rows) = Ok (loaded messy_rows) ∧
  load_data (H := plain_converters) (Ok (loaded messy_rows))
    = Ok (loaded messy_rows).
Proof.
  split; [apply loaded_messy_rows|].
  apply (load_data_idempotent (H := plain_converters) messy_rows),
    loaded_messy_rows.
Defined.

(** ** The cells of a normalized frame *)

Section Cells.

Context `{Converters}.





End Cells.



(** ** The report as a whole *)

Global Instance by_count_desc_total : Total by_count_desc.
Proof. intros a b. unfold by_count_desc. lia. Qed.

Global Instance by_count_desc_trans : Transitive by_count_desc.
Proof. intros a b c. unfold by_count_desc. lia. Qed.


Section Report.

Context `{Converters}.







End Report.






(** ** Sums of sums *)









Section Sums.

Context `{Converters}.




End Sums.




(** ** Display strings *)

Lemma digit_of_digit_char (d : Z) :
  (0 ≤ d ≤ 9)%Z → digit_of (digit_char d) = Some d.
Proof.
  intros Hd.
  assert (d = 0 ∨ d = 1 ∨ d = 2 ∨ d = 3 ∨ d = 4 ∨ d = 5 ∨ d = 6 ∨ d = 7 ∨
          d = 8 ∨ d = 9)%Z as Hcases by lia.
  by repeat destruct Hcases as [->|Hcases]; [..|subst d].
Qed.

Lemma digit_char_not_comma (d : Z) :
  (0 ≤ d ≤ 9)%Z → digit_char d ≠ ","%char.
Proof.
  intros Hd.
  assert (d = 0 ∨ d = 1 ∨ d = 2 ∨ d = 3 ∨ d = 4 ∨ d = 5 ∨ d = 6 ∨ d = 7 ∨
          d = 8 ∨ d = 9)%Z as Hcases by lia.
  by repeat destruct Hcases as [->|Hcases]; [..|subst d].
Qed.

Lemma read_grouped_digit (acc d : Z) (s : string) :
  (0 ≤ d ≤ 9)%Z →
  read_grouped acc (String (digit_char d) s) = read_grouped (10 * acc + d) s.
Proof.
  intros Hd. cbn [read_grouped].
  rewrite decide_False by by apply digit_char_not_comma.
  by rewrite digit_of_digit_char.
Qed.

Lemma read_grouped_app (acc : Z) (s1 s2 : string) :
  read_grouped acc (s1 +:+ s2)
    = read_grouped acc s1 ≫= λ a, read_grouped a s2.
Proof.
  revert acc. induction s1 as [|c s1 IH]; intros acc; [done|].
  change (String c s1 +:+ s2) with (String c (s1 +:+ s2)).
  cbn [read_grouped]. case_decide; [apply IH|].
  destruct (digit_of c); [apply IH|done].
Qed.

Lemma read_three_digits (acc g : Z) :
  (0 ≤ g < 1000)%Z →
  read_grouped acc (three_digits g) = Some (1000 * acc + g)%Z.
Proof.
  intros Hg. unfold three_digits.
  rewrite !read_grouped_digit.
  - cbn [read_grouped]. f_equal.
    pose proof (Z.div_mod g 10). pose proof (Z.div_mod (g / 10) 10).
    replace (g / 100)%Z with (g / 10 / 10)%Z
      by (rewrite Z.div_div by lia; done).
    lia.
  - pose proof (Z.mod_pos_bound g 10). lia.
  - pose proof (Z.mod_pos_bound (g / 10) 10). lia.
  - split; [apply Z.div_pos; lia|].
    apply Z.lt_succ_r, Z.div_lt_upper_bound; lia.
Qed.

Lemma read_leading_digits (g : Z) :
  (0 ≤ g < 1000)%Z → read_grouped 0 (leading_digits g) = Some g.
Proof.
  intros Hg. unfold leading_digits. repeat case_decide.
  - by rewrite read_grouped_digit by lia.
  - rewrite !read_grouped_digit.
    + cbn [read_grouped]. f_equal. pose proof (Z.div_mod g 10). lia.
    + pose proof (Z.mod_pos_bound g 10). lia.
    + split; [apply Z.div_pos; lia|].
      apply Z.lt_succ_r, Z.div_lt_upper_bound; lia.
  - rewrite read_three_digits by lia. f_equal.
Qed.

Lemma read_group_thousands (fuel : nat) (n : Z) :
  (0 ≤ n)%Z → (Z.log2 n ≤ Z.of_nat fuel)%Z →
  read_grouped 0 (group_thousands fuel n) = Some n.
Proof.
  revert n. induction fuel as [|fuel IH]; intros n Hn Hlog.
  - apply read_leading_digits.
    destruct (decide (n = 0%Z)) as [->|Hne]; [lia|].
    assert (n < 2 ^ 1)%Z by (apply Z.log2_lt_pow2; lia). lia.
  - cbn [group_thousands]. case_decide as Hlt.
    + apply read_leading_digits. lia.
    + rewrite read_grouped_app, IH.
      * change (Some (n / 1000)%Z ≫= _)
          with (read_grouped (n / 1000) (three_digits (n mod 1000))).
        rewrite read_three_digits by (apply Z.mod_pos_bound; lia).
        f_equal. pose proof (Z.div_mod n 1000). lia.
      * apply Z.div_pos; lia.
      * assert (n < 2 ^ (Z.of_nat (S fuel) + 1))%Z as Hpow
          by (apply Z.log2_lt_pow2; lia).
        assert (0 < n / 1000)%Z by (apply Z.div_str_pos; lia).
        apply Z.lt_succ_r, Z.log2_lt_pow2; [done|].
        apply Z.div_lt_upper_bound; [lia|].
        replace (Z.of_nat (S fuel) + 1)%Z with (Z.succ (Z.succ (Z.of_nat fuel)))
          in Hpow by lia.
        rewrite Z.pow_succ_r in Hpow by lia.
        assert (0 < 2 ^ Z.succ (Z.of_nat fuel))%Z
          by (apply Z.pow_pos_nonneg; lia).
        lia.
Qed.

(** X11. The grouped decimal form of a natural number reads back to the
    number: its digits, commas skipped, are those of the number. *)
Theorem format_thousands_reads_back (n : Z) :
  (0 ≤ n)%Z → read_grouped 0 (format_thousands n) = Some n.
Proof.
  intros Hn. apply read_group_thousands; [done|].
  rewrite Z2Nat.id; [done|apply Z.log2_nonneg].
Qed.

Lemma format_thousands_reads_back_witness :
  (0 ≤ 1234567)%Z ∧
  format_thousands 1234567 = "1,234,567" ∧
  read_grouped 0 (format_thousands 1234567) = Some 1234567%Z.
Proof.
  split; [lia|]. split; [reflexivity|].
  apply (format_thousands_reads_back 1234567). lia.
Defined.




(** ** The table shown *)

(** A list computation with a failing element raises the exception of one
    of its failing elements (the first one). *)
Lemma mapM_Raise {A B : Type} (f : A → result B) (l : list A) :
  (∃ x e, x ∈ l ∧ f x = Raise e) →
  ∃ x e, x ∈ l ∧ f x = Raise e ∧ mapM f l = Raise e.
Proof.
  induction l as [|a l IH]; intros (x & e & Hx & Hfx).
  - by apply elem_of_nil in Hx.
  - destruct (f a) as [b|e'] eqn:Hfa.
    + destruct IH as (x' & e'' & Hx' & Hfx' & Hm).
      { apply elem_of_cons in Hx as [->|Hx]; [congruence|by eauto]. }
      exists x', e''. split; [by right|]. split; [done|].
      cbn. rewrite Hfa. cbn. by rewrite Hm.
    + exists a, e'. split; [by left|]. split; [done|].
      cbn. by rewrite Hfa.
Qed.

(** X13. The table shown has the rows of the frame and, for each of the
    thirteen names of [column_order], the column of the frame, and no other
    column; it is built exactly when the frame has those thirteen columns,
    and otherwise the [KeyError] of a missing one is raised. *)
Theorem display_df_projection (df : DataFrame) :
  (has_columns column_order df →
   ∃ t, display_df df = Ok t ∧
        nrows t = nrows df ∧
        ∀ c, columns t !! c
               = if decide (c ∈ column_order) then columns df !! c else None) ∧
  (¬ has_columns column_order df →
   ∃ c, c ∈ column_order ∧ columns df !! c = None ∧
        display_df df = Raise (KeyError c)).
Proof.
  split.
  - intros Hcols. unfold display_df.
    rewrite (mapM_Ok _ (λ c, (c, default [] (columns df !! c)))).
    + eexists. split; [done|]. split; [done|]. intros c. cbn [columns].
      case_decide as Hc.
      * destruct (Hcols c Hc) as [s Hs]. rewrite Hs.
        apply elem_of_list_to_map_1.
        -- rewrite <-list_fmap_compose, list_fmap_id. by compute_done.
        -- apply list_elem_of_fmap. exists c. by rewrite Hs.
      * apply not_elem_of_list_to_map_1.
        by rewrite <-list_fmap_compose, list_fmap_id.
    + apply Forall_forall. intros c [s Hs]%Hcols.
      unfold getitem. by rewrite Hs.
  - intros Hnot.
    destruct (missing_column _ _ Hnot) as (c0 & Hc0 & Hnone0).
    destruct (mapM_Raise (λ c, s ← getitem df c; Ok (c, s)) column_order)
      as (c & e & Hc & He & Hraise).
    { exists c0, (KeyError c0). split; [done|].
      unfold getitem. by rewrite Hnone0. }
    exists c. unfold display_df. rewrite Hraise. unfold getitem in He.
    destruct (columns df !! c); [done|]. cbn in He. injection He as <-.
    done.
Qed.
